(** * The analysis pipeline of capstone-webapp

    A shallow embedding of [app/langgraph_nodes.py] (the four pipeline
    stages) and of the upload endpoint of [app/main.py], followed by the
    properties of the pipeline.

    Python strings are modelled as [string] (code points below 256), Python
    values as [pyval], dictionaries as association lists in insertion
    order, exceptions as the [Raise] result of a state-and-error monad. *)

From Stdlib Require Import List String Ascii ZArith Bool Lia Arith Sorted.
Import ListNotations.
Local Open Scope string_scope.

Set Implicit Arguments.

(** ** Exceptions *)

Inductive exn : Type :=
| AttributeError
| TypeError
| KeyError
| IndexError
| ValueError
| SyntaxError
| NameError
| OSError
| ServiceError (msg : string)
| SystemExit
| KeyboardInterrupt.

(** [except Exception] catches every class but the ones that derive from
    [BaseException] only. *)
Definition is_Exception (e : exn) : bool :=
  match e with
  | SystemExit | KeyboardInterrupt => false
  | _ => true
  end.

Inductive outcome (A : Type) : Type :=
| Ok (a : A)
| Raise (e : exn).

Arguments Ok {A} a.
Arguments Raise {A} e.

(** ** Python values *)

#[warnings="-register-all"]
Inductive pyval : Type :=
| VNone
| VBool (b : bool)
| VInt (z : Z)
| VStr (s : string)
| VList (l : list pyval)
| VTuple (l : list pyval)
| VDict (d : list (pyval * pyval)).

(** [==] on the values above; [True == 1] and [False == 0] as in Python. *)
Fixpoint py_eqb (a b : pyval) {struct a} : bool :=
  let fix all2 (l1 l2 : list pyval) {struct l1} : bool :=
    match l1, l2 with
    | [], [] => true
    | x :: l1', y :: l2' => py_eqb x y && all2 l1' l2'
    | _, _ => false
    end in
  match a, b with
  | VNone, VNone => true
  | VBool x, VBool y => Bool.eqb x y
  | VBool x, VInt z => Z.eqb (if x then 1 else 0) z
  | VInt z, VBool y => Z.eqb z (if y then 1 else 0)
  | VInt x, VInt y => Z.eqb x y
  | VStr s, VStr t => String.eqb s t
  | VList l1, VList l2 => all2 l1 l2
  | VTuple l1, VTuple l2 => all2 l1 l2
  | VDict _, VDict _ => false
  | _, _ => false
  end.

(** Lists and dictionaries are unhashable, a tuple is hashable when its
    items are. *)
Fixpoint hashable (v : pyval) : bool :=
  match v with
  | VList _ | VDict _ => false
  | VTuple l => forallb hashable l
  | _ => true
  end.

(** *** Dictionaries in insertion order *)

Definition pydict := list (pyval * pyval).

Fixpoint dict_get (d : pydict) (k : pyval) : option pyval :=
  match d with
  | [] => None
  | (k', v) :: d' => if py_eqb k' k then Some v else dict_get d' k
  end.

(** [d[k] = v]: an existing key keeps its position and its first key
    object, a new key goes last. *)
Fixpoint dict_set (d : pydict) (k v : pyval) : pydict :=
  match d with
  | [] => [(k, v)]
  | (k', v') :: d' =>
      if py_eqb k' k then (k', v) :: d' else (k', v') :: dict_set d' k v
  end.

(** [x.items()] *)
Definition py_items (x : pyval) : outcome pydict :=
  match x with
  | VDict d => Ok d
  | _ => Raise AttributeError
  end.

(** [x.get(key, default)] *)
Definition py_get (x : pyval) (key : string) (default : pyval) : outcome pyval :=
  match x with
  | VDict d =>
      match dict_get d (VStr key) with
      | Some v => Ok v
      | None => Ok default
      end
  | _ => Raise AttributeError
  end.

(** ** Strings *)

Definition is_space (c : ascii) : bool :=
  let n := nat_of_ascii c in
  ((9 <=? n)%nat && (n <=? 13)%nat) || ((28 <=? n)%nat && (n <=? 32)%nat)
  || (n =? 133)%nat || (n =? 160)%nat.

Fixpoint lstrip (s : string) : string :=
  match s with
  | String c s' => if is_space c then lstrip s' else s
  | EmptyString => EmptyString
  end.

Fixpoint rstrip (s : string) : string :=
  match s with
  | EmptyString => EmptyString
  | String c s' =>
      match rstrip s' with
      | EmptyString => if is_space c then EmptyString else String c EmptyString
      | r => String c r
      end
  end.

Fixpoint all_space (s : string) : bool :=
  match s with
  | EmptyString => true
  | String c s' => is_space c && all_space s'
  end.

Fixpoint last_char (s : string) : option ascii :=
  match s with
  | EmptyString => None
  | String c EmptyString => Some c
  | String _ s' => last_char s'
  end.


(** [s.strip()] *)
Definition strip (s : string) : string := rstrip (lstrip s).

(** [s.startswith(p)] *)
Definition startswith (s p : string) : bool := String.prefix p s.

Fixpoint drop (n : nat) (s : string) : string :=
  match n, s with
  | O, _ => s
  | S n', String _ s' => drop n' s'
  | S _, EmptyString => EmptyString
  end.

Fixpoint take (n : nat) (s : string) : string :=
  match n, s with
  | O, _ => EmptyString
  | S n', String c s' => String c (take n' s')
  | S _, EmptyString => EmptyString
  end.

(** [s.endswith(p)] *)
Definition endswith (s p : string) : bool :=
  (String.length p <=? String.length s)%nat
  && String.eqb (drop (String.length s - String.length p) s) p.

(** [s[n:]] and [s[:-n]] for [n > 0] *)
Definition slice_from (n : nat) (s : string) : string := drop n s.
Definition slice_to_neg (n : nat) (s : string) : string :=
  take (String.length s - n) s.

(** [s.replace(old, new)] for a non-empty [old]: leftmost non-overlapping
    occurrences; [skip] counts the characters of a match still to pass. *)
Fixpoint replace_aux (s old new : string) (skip : nat) : string :=
  match s with
  | EmptyString => EmptyString
  | String c s' =>
      match skip with
      | S k => replace_aux s' old new k
      | O =>
          if String.prefix old s
          then new ++ replace_aux s' old new (String.length old - 1)
          else String c (replace_aux s' old new 0)
      end
  end.

Definition replace (s old new : string) : string :=
  replace_aux s old new 0.

(** ** [ast.literal_eval]

    A model of the standard library's literal evaluator on a fragment of
    the literal syntax: dictionary, list and tuple displays (a trailing
    comma allowed), single-line string literals in single or double
    quotes with the escapes for backslash, the two quotes, newline, tab
    and carriage return, decimal integers with an optional sign, and
    [True], [False], [None]. Whatever this model accepts, Python accepts
    with the same value (the interpreter's limits on nesting depth and on
    the number of digits left aside). Outside the fragment (other forms
    of numbers, sets, bytes and prefixed strings, triple-quoted or
    adjacent strings, other escapes, comments, a bare tuple) the model
    rejects; every rejection by the grammar is reported as [SyntaxError],
    where Python raises [SyntaxError] or [ValueError]. *)

Definition dquote : ascii := "034"%char.
Definition newline : ascii := "010"%char.
Definition tab : ascii := "009"%char.
Definition cr : ascii := "013"%char.
Definition formfeed : ascii := "012"%char.

(** White space between the tokens of a bracketed display. *)
Definition is_lit_ws (c : ascii) : bool :=
  Ascii.eqb c " " || Ascii.eqb c tab || Ascii.eqb c newline
  || Ascii.eqb c cr || Ascii.eqb c formfeed.

Fixpoint skip_ws (s : string) : string :=
  match s with
  | String c s' => if is_lit_ws c then skip_ws s' else s
  | EmptyString => EmptyString
  end.

Definition is_digit (c : ascii) : bool :=
  let n := nat_of_ascii c in (48 <=? n)%nat && (n <=? 57)%nat.

Definition is_ident_char (c : ascii) : bool :=
  let n := nat_of_ascii c in
  is_digit c || ((65 <=? n)%nat && (n <=? 90)%nat)
  || ((97 <=? n)%nat && (n <=? 122)%nat) || (n =? 95)%nat.

(** The body of a string literal, after its opening quote [q]. *)
Fixpoint parse_string (q : ascii) (s : string) : option (string * string) :=
  match s with
  | EmptyString => None
  | String c s' =>
      if Ascii.eqb c q then Some (EmptyString, s')
      else if Ascii.eqb c newline || Ascii.eqb c cr then None
      else if Ascii.eqb c "\" then
        match s' with
        | String e s'' =>
            let esc :=
              if Ascii.eqb e "\" then Some "\"%char
              else if Ascii.eqb e "'" then Some "'"%char
              else if Ascii.eqb e dquote then Some dquote
              else if Ascii.eqb e "n" then Some newline
              else if Ascii.eqb e "t" then Some tab
              else if Ascii.eqb e "r" then Some cr
              else None in
            match esc, parse_string q s'' with
            | Some x, Some (body, rest) => Some (String x body, rest)
            | _, _ => None
            end
        | EmptyString => None
        end
      else
        match parse_string q s' with
        | Some (body, rest) => Some (String c body, rest)
        | None => None
        end
  end.

Fixpoint parse_digits (s : string) (acc : Z) : Z * string :=
  match s with
  | String c s' =>
      if is_digit c
      then parse_digits s' (10 * acc + Z.of_nat (nat_of_ascii c - 48))%Z
      else (acc, s)
  | EmptyString => (acc, s)
  end.

(** A decimal integer; a leading zero followed by a digit is left out. *)
Definition parse_nat (s : string) : option (Z * string) :=
  match s with
  | String c s' =>
      if is_digit c then
        match s' with
        | String c' _ =>
            if Ascii.eqb c "0" && is_digit c' then None
            else Some (parse_digits s 0%Z)
        | EmptyString => Some (parse_digits s 0%Z)
        end
      else None
  | EmptyString => None
  end.

(** A keyword constant, not followed by an identifier character. *)
Definition parse_keyword (kw : string) (v : pyval) (s : string)
  : option (pyval * string) :=
  if String.prefix kw s then
    match drop (String.length kw) s with
    | String c r => if is_ident_char c then None else Some (v, String c r)
    | EmptyString => Some (v, EmptyString)
    end
  else None.

(** The parser proper. A dictionary display is returned with its pairs as
    written; [build] below makes the dictionary. *)
Fixpoint parse_value (fuel : nat) (s : string) {struct fuel}
  : option (pyval * string) :=
  match fuel with
  | O => None
  | S f =>
      match s with
      | EmptyString => None
      | String c r =>
          if Ascii.eqb c "{" then
            match parse_pairs f (skip_ws r) [] with
            | Some (d, rest) => Some (VDict d, rest)
            | None => None
            end
          else if Ascii.eqb c "[" then
            match parse_items f "]"%char (skip_ws r) [] false with
            | Some (l, _, rest) => Some (VList l, rest)
            | None => None
            end
          else if Ascii.eqb c "(" then
            match parse_items f ")"%char (skip_ws r) [] false with
            | Some ([x], false, rest) => Some (x, rest)
            | Some (l, _, rest) => Some (VTuple l, rest)
            | None => None
            end
          else if Ascii.eqb c "'" || Ascii.eqb c dquote then
            if String.prefix (String c (String c EmptyString)) r then None
            else
              match parse_string c r with
              | Some (body, rest) => Some (VStr body, rest)
              | None => None
              end
          else if Ascii.eqb c "-" then
            match parse_nat r with
            | Some (z, rest) => Some (VInt (- z), rest)
            | None => None
            end
          else if Ascii.eqb c "+" then
            match parse_nat r with
            | Some (z, rest) => Some (VInt z, rest)
            | None => None
            end
          else if is_digit c then
            match parse_nat s with
            | Some (z, rest) => Some (VInt z, rest)
            | None => None
            end
          else
            match parse_keyword "True" (VBool true) s with
            | Some x => Some x
            | None =>
                match parse_keyword "False" (VBool false) s with
                | Some x => Some x
                | None => parse_keyword "None" VNone s
                end
            end
      end
  end

with parse_items (fuel : nat) (close : ascii) (s : string)
       (acc : list pyval) (comma : bool) {struct fuel}
  : option (list pyval * bool * string) :=
  match fuel with
  | O => None
  | S f =>
      match s with
      | EmptyString => None
      | String c r =>
          if Ascii.eqb c close then Some (rev acc, comma, r)
          else
            match parse_value f s with
            | Some (v, rest) =>
                match skip_ws rest with
                | String c' r' =>
                    if Ascii.eqb c' "," then
                      parse_items f close (skip_ws r') (v :: acc) true
                    else if Ascii.eqb c' close then
                      Some (rev (v :: acc), comma, r')
                    else None
                | EmptyString => None
                end
            | None => None
            end
      end
  end

with parse_pairs (fuel : nat) (s : string) (acc : list (pyval * pyval))
       {struct fuel}
  : option (list (pyval * pyval) * string) :=
  match fuel with
  | O => None
  | S f =>
      match s with
      | EmptyString => None
      | String c r =>
          if Ascii.eqb c "}" then Some (rev acc, r)
          else
            match parse_value f s with
            | Some (k, rest) =>
                match skip_ws rest with
                | String c1 r1 =>
                    if Ascii.eqb c1 ":" then
                      match parse_value f (skip_ws r1) with
                      | Some (v, rest') =>
                          match skip_ws rest' with
                          | String c2 r2 =>
                              if Ascii.eqb c2 "," then
                                parse_pairs f (skip_ws r2) ((k, v) :: acc)
                              else if Ascii.eqb c2 "}" then
                                Some (rev ((k, v) :: acc), r2)
                              else None
                          | EmptyString => None
                          end
                      | None => None
                      end
                    else None
                | EmptyString => None
                end
            | None => None
            end
      end
  end.

(** The value of a parsed display: dictionaries are filled pair by pair,
    an unhashable key raises [TypeError]. *)
Fixpoint build (v : pyval) : outcome pyval :=
  let fix build_list (l : list pyval) : outcome (list pyval) :=
    match l with
    | [] => Ok []
    | x :: l' =>
        match build x, build_list l' with
        | Ok x', Ok l'' => Ok (x' :: l'')
        | Raise e, _ => Raise e
        | _, Raise e => Raise e
        end
    end in
  let fix build_dict (d : list (pyval * pyval)) (acc : pydict)
      : outcome pydict :=
    match d with
    | [] => Ok acc
    | (k, x) :: d' =>
        match build k, build x with
        | Ok k', Ok x' =>
            if hashable k' then build_dict d' (dict_set acc k' x')
            else Raise TypeError
        | Raise e, _ => Raise e
        | _, Raise e => Raise e
        end
    end in
  match v with
  | VList l =>
      match build_list l with Ok l' => Ok (VList l') | Raise e => Raise e end
  | VTuple l =>
      match build_list l with Ok l' => Ok (VTuple l') | Raise e => Raise e end
  | VDict d =>
      match build_dict d [] with Ok d' => Ok (VDict d') | Raise e => Raise e end
  | _ => Ok v
  end.

Fixpoint lstrip_blank (s : string) : string :=
  match s with
  | String c s' =>
      if Ascii.eqb c " " || Ascii.eqb c tab then lstrip_blank s' else s
  | EmptyString => EmptyString
  end.

Fixpoint skip_newlines (s : string) : string :=
  match s with
  | String c s' =>
      if Ascii.eqb c newline || Ascii.eqb c cr then skip_newlines s' else s
  | EmptyString => EmptyString
  end.

(** [ast.literal_eval(s)]: leading blanks are stripped, empty lines before
    the expression and white space after it are passed over. *)
Definition literal_eval (s : string) : outcome pyval :=
  let s0 := skip_newlines (lstrip_blank s) in
  match parse_value (2 * String.length s0 + 2) s0 with
  | Some (v, rest) =>
      match skip_ws rest with
      | EmptyString => build v
      | _ => Raise SyntaxError
      end
  | None => Raise SyntaxError
  end.

(** ** [os.path] (POSIX) *)

Definition sep : ascii := "/"%char.

(** [os.path.join(a, b)] *)
Definition os_path_join (a b : string) : string :=
  if startswith b (String sep EmptyString) then b
  else if String.eqb a EmptyString || endswith a (String sep EmptyString)
       then a ++ b
       else a ++ String sep b.

(** [os.path.basename(p)]: what follows the last separator; [cur] is what
    follows the last separator met so far. *)
Fixpoint basename_from (p cur : string) : string :=
  match p with
  | EmptyString => cur
  | String c p' =>
      if Ascii.eqb c sep then basename_from p' p' else basename_from p' cur
  end.

Definition os_path_basename (p : string) : string := basename_from p p.

(** ** The state of the process *)

(** A table: column names and rows of cells. *)
Record DataFrame : Type := {
  df_columns : list string;
  df_rows : list (list pyval)
}.

(** A DataFrame object is held by reference. *)
Definition ref := nat.

(** A figure is known by what has been drawn on it; a raster image by the
    figure it was saved from. *)
Definition figure := list string.

Inductive image : Type :=
| Png (content : figure).

Inductive blob : Type :=
| PdfFile (pages : list (image * string))
| PngFile (img : image)
| RawFile (content : string).

Record Env : Type := {
  frames : list DataFrame;       (* the DataFrame objects, by reference *)
  figs : list (Z * figure);      (* pyplot's figure registry, the current
                                    figure last *)
  files : list (string * blob);  (* the file system *)
  unwritable : list string       (* paths that cannot be opened for writing *)
}.

Definition set_frames (x : list DataFrame) (e : Env) : Env :=
  {| frames := x; figs := figs e; files := files e;
     unwritable := unwritable e |}.
Definition set_figs (x : list (Z * figure)) (e : Env) : Env :=
  {| frames := frames e; figs := x; files := files e;
     unwritable := unwritable e |}.
Definition set_files (x : list (string * blob)) (e : Env) : Env :=
  {| frames := frames e; figs := figs e; files := x;
     unwritable := unwritable e |}.

(** What [exec] is given as a name space. *)
Inductive binding : Type :=
| BDataFrame (r : ref)
| BPyplot
| BPandas.

Definition scope := list (string * binding).

(** A request to the text-generation service and its response: the
    content of each of the choices ([None] or a string). *)
Record request : Type := {
  messages : list (string * string);   (* role, content *)
  max_tokens : Z;
  temperature : Z;
  top_p : Z;
  model : string
}.

Definition response := list pyval.

(** What the pipeline itself does to the outside, in order. *)
Inductive event : Type :=
| EvCreate (r : request)
| EvExec (chart_name : pyval) (code : string) (globals locals : scope)
| EvPrintExecError (chart_name : pyval) (e : exn)
| EvPrintNoFigure (chart_name : pyval) (sheet_name : string)
| EvSave (path : string).

Record World : Type := {
  env : Env;
  trace : list event
}.

(** ** A state and exception monad *)

Definition M (A : Type) : Type := World -> outcome A * World.

Definition ret {A} (a : A) : M A := fun w => (Ok a, w).

Definition bind {A B} (c : M A) (k : A -> M B) : M B :=
  fun w =>
    match c w with
    | (Ok a, w') => k a w'
    | (Raise e, w') => (Raise e, w')
    end.

Notation "x <- c ;; k" := (bind c (fun x => k))
  (at level 61, c at next level, right associativity).
Notation "c ;;; k" := (bind c (fun _ => k))
  (at level 61, right associativity).

Definition lift {A} (o : outcome A) : M A := fun w => (o, w).

Definition raise {A} (e : exn) : M A := lift (Raise e).

Definition emit (ev : event) : M unit :=
  fun w => (Ok tt, {| env := env w; trace := trace w ++ [ev] |}).

Definition get_env : M Env := fun w => (Ok (env w), w).

Definition put_env (e : Env) : M unit :=
  fun w => (Ok tt, {| env := e; trace := trace w |}).

(** [try: c except Exception as e: ...]: the exception caught, if any. *)
Definition attempt (c : M unit) : M (option exn) :=
  fun w =>
    match c w with
    | (Ok _, w') => (Ok None, w')
    | (Raise e, w') =>
        if is_Exception e then (Ok (Some e), w') else (Raise e, w')
    end.

(** A [for] loop that threads an accumulator. *)
Fixpoint foldM {A B} (f : A -> B -> M A) (a : A) (l : list B) : M A :=
  match l with
  | [] => ret a
  | x :: l' => a' <- f a x ;; foldM f a' l'
  end.

(** ** pyplot's figure registry *)

Fixpoint insert_num (n : Z) (l : list Z) : list Z :=
  match l with
  | [] => [n]
  | m :: l' => if (n <=? m)%Z then n :: l else m :: insert_num n l'
  end.

Definition sorted_nums (l : list Z) : list Z :=
  fold_right insert_num [] l.

(** [plt.get_fignums()] *)
Definition plt_get_fignums (e : Env) : list Z :=
  sorted_nums (map fst (figs e)).

Fixpoint find_fig (n : Z) (r : list (Z * figure)) : option figure :=
  match r with
  | [] => None
  | (m, f) :: r' => if (m =? n)%Z then Some f else find_fig n r'
  end.

Definition remove_fig (n : Z) (r : list (Z * figure)) : list (Z * figure) :=
  filter (fun p => negb (fst p =? n)%Z) r.

(** [plt.figure(n)]: the figure numbered [n] becomes the current one; it
    is created when there is none. *)
Definition plt_figure (n : Z) : M (Z * figure) :=
  e <- get_env ;;
  match find_fig n (figs e) with
  | Some f =>
      put_env (set_figs (remove_fig n (figs e) ++ [(n, f)]) e) ;;;
      ret (n, f)
  | None =>
      put_env (set_figs (figs e ++ [(n, [])]) e) ;;;
      ret (n, [])
  end.

(** [plt.close(fig)] *)
Definition plt_close (fig : Z * figure) : M unit :=
  e <- get_env ;;
  put_env (set_figs (remove_fig (fst fig) (figs e)) e).

(** [fig.savefig(buf, format='png')]; rendering a registered figure to
    memory is taken to succeed. *)
Definition savefig (fig : Z * figure) : image := Png (snd fig).

(** [l[-1]] on a non-empty list *)
Definition py_last {A} (l : list A) : option A :=
  match rev l with
  | x :: _ => Some x
  | [] => None
  end.

(** ** The pipeline state *)

(** [SheetState]: the four keys set at ingestion and the three that the
    later stages add ([None] while the key is absent). *)
Record SheetState : Type := {
  sheet_name : string;
  summary : pyval;
  profile : pyval;
  df : ref;
  insights : option pyval;
  visuals : option pyval;
  pdf_path : option string
}.

Definition set_insights (x : pyval) (s : SheetState) : SheetState :=
  {| sheet_name := sheet_name s; summary := summary s; profile := profile s;
     df := df s; insights := Some x; visuals := visuals s;
     pdf_path := pdf_path s |}.
Definition set_visuals (x : pyval) (s : SheetState) : SheetState :=
  {| sheet_name := sheet_name s; summary := summary s; profile := profile s;
     df := df s; insights := insights s; visuals := Some x;
     pdf_path := pdf_path s |}.
Definition set_pdf_path (x : string) (s : SheetState) : SheetState :=
  {| sheet_name := sheet_name s; summary := summary s; profile := profile s;
     df := df s; insights := insights s; visuals := visuals s;
     pdf_path := Some x |}.

Record DataProfileState : Type := {
  filepath : string;
  sheets : option (list SheetState)
}.

Definition set_sheets (x : list SheetState) (s : DataProfileState)
  : DataProfileState :=
  {| filepath := filepath s; sheets := Some x |}.

(** [d[key]] on a key that may be absent *)
Definition item {A} (x : option A) : M A :=
  match x with
  | Some a => ret a
  | None => raise KeyError
  end.

Definition empty_frame : DataFrame := {| df_columns := []; df_rows := [] |}.

(** The object behind a reference. *)
Definition deref (r : ref) (e : Env) : DataFrame := nth r (frames e) empty_frame.

(** ** The planner's handling of the response text *)

(** Lines 169-173: remove Markdown code block markers. *)
Definition remove_code_block_markers (raw : string) : string :=
  let raw1 :=
    if startswith raw "```json"
    then strip (slice_from (String.length "```json") raw)
    else raw in
  if endswith raw1 "```"
  then strip (slice_to_neg (String.length "```") raw1)
  else raw1.

(** A string method called on a value that may be [None]. *)
Definition as_str (v : pyval) : outcome string :=
  match v with
  | VStr s => Ok s
  | _ => Raise AttributeError
  end.

(** [response.choices[0].message.content] *)
Definition first_content (r : response) : outcome pyval :=
  match r with
  | c :: _ => Ok c
  | [] => Raise IndexError
  end.

(** The shape that the specification asks of the planner's result: a
    mapping with string keys whose values are mappings with exactly the
    two string fields [plot] and [description]. *)
Definition is_str (v : option pyval) : bool :=
  match v with
  | Some (VStr _) => true
  | _ => false
  end.

Definition is_chart_spec (v : pyval) : bool :=
  match v with
  | VDict d =>
      (List.length d =? 2)%nat && is_str (dict_get d (VStr "plot"))
      && is_str (dict_get d (VStr "description"))
  | _ => false
  end.

Definition well_shaped (v : pyval) : bool :=
  match v with
  | VDict d => forallb (fun kv => is_str (Some (fst kv)) && is_chart_spec (snd kv)) d
  | _ => false
  end.

(** ** The renderer's handling of one chart specification *)

(** [chart.get("plot","").replace("plt.show()", "")] *)
Definition plot_code_of (chart : pyval) : outcome string :=
  match py_get chart "plot" (VStr "") with
  | Ok v =>
      match as_str v with
      | Ok s => Ok (replace s "plt.show()" "")
      | Raise e => Raise e
      end
  | Raise e => Raise e
  end.

(** [chart.get("description","")] *)
Definition description_of (chart : pyval) : outcome pyval :=
  py_get chart "description" (VStr "").

(** The code strings that the renderer executes for a mapping of chart
    specifications. *)
Definition chart_codes (items : pydict) : list string :=
  flat_map (fun x => match plot_code_of (snd x) with
                     | Ok c => [c]
                     | Raise _ => []
                     end) items.

Definition is_create (ev : event) : bool :=
  match ev with
  | EvCreate _ => true
  | _ => false
  end.

Definition is_exec (ev : event) : bool :=
  match ev with
  | EvExec _ _ _ _ => true
  | _ => false
  end.

Definition local_scope (df : ref) : scope :=
  [("df", BDataFrame df); ("plt", BPyplot); ("pd", BPandas)].

(** The code strings of the [exec] calls of a trace, in order. *)
Definition exec_codes (t : list event) : list string :=
  flat_map (fun ev => match ev with
                      | EvExec _ code _ _ => [code]
                      | _ => []
                      end) t.

(** An [exec] call with no global binding and the three local ones. *)
Definition three_bindings (r : ref) (ev : event) : Prop :=
  match ev with
  | EvExec _ _ globals locals =>
      globals = []
      /\ locals = [("df", BDataFrame r); ("plt", BPyplot); ("pd", BPandas)]
  | _ => True
  end.

(** [c.drawString(text_x, text_y, description)]: a string is drawn, any
    other value has no [decode] to make it one. Reading the image back
    and drawing it ([ImageReader], [c.drawImage]) are taken to succeed. *)
Definition drawString (description : pyval) : outcome string :=
  as_str description.

Fixpoint draw_pages (l : list (image * pyval)) : outcome (list (image * string)) :=
  match l with
  | [] => Ok []
  | (img, description) :: l' =>
      match drawString description with
      | Ok text =>
          match draw_pages l' with
          | Ok ps => Ok ((img, text) :: ps)
          | Raise e => Raise e
          end
      | Raise e => Raise e
      end
  end.

Fixpoint set_file (path : string) (b : blob) (fs : list (string * blob))
  : list (string * blob) :=
  match fs with
  | [] => [(path, b)]
  | (p, b') :: fs' =>
      if String.eqb p path then (p, b) :: fs' else (p, b') :: set_file path b fs'
  end.

(** Opening [path] for writing and writing [b]. *)
Definition write_file (path : string) (b : blob) : M unit :=
  e <- get_env ;;
  if existsb (String.eqb path) (unwritable e) then raise OSError
  else put_env (set_files (set_file path b (files e)) e).

(** [os.path.exists(path)] *)
Definition os_path_exists (path : string) (e : Env) : bool :=
  existsb (fun p => String.eqb (fst p) path) (files e).

Definition count_create (t : list event) : nat :=
  List.length (filter (fun ev => match ev with EvCreate _ => true | _ => false end) t).

(** ** A concrete setting

    To run the pipeline on closed inputs the parameters are instantiated:
    the service answers from a script, and [exec] is an interpreter for a
    few statements of chart code, each with the effect it has under
    Python with matplotlib and pandas. Statements are separated by line
    ends or semicolons; the code is compiled as a whole before any of it
    runs. Code outside the fragment is reported as a [SyntaxError]. *)

Module Concrete.

Inductive stmt : Type :=
| SPass                      (* pass *)
| SNewFigure                 (* fig = plt.figure() *)
| STitle (t : string)        (* plt.title('t') *)
| SRaise (e : exn)           (* raise ValueError() / raise SystemExit *)
| SDropRows                  (* df.drop(df.index, inplace=True) *)
| SSavefig (path : string)   (* plt.savefig('path') *)
| SOpen (path : string).     (* open('path', 'w').close() *)

(** [s.split(c)] *)
Fixpoint split_on (c : ascii) (s : string) : list string :=
  match s with
  | EmptyString => [EmptyString]
  | String x s' =>
      if Ascii.eqb x c then EmptyString :: split_on c s'
      else
        match split_on c s' with
        | h :: t => String x h :: t
        | [] => [String x EmptyString]
        end
  end.

(** The text between [pre] and [suf], when it holds no quote. *)
Definition between (pre suf s : string) : option string :=
  if startswith s pre && endswith s suf
     && (String.length pre + String.length suf <=? String.length s)%nat
  then
    let mid := slice_to_neg (String.length suf) (slice_from (String.length pre) s) in
    if existsb (Ascii.eqb "'") (list_ascii_of_string mid) then None
    else Some mid
  else None.

Definition parse_stmt (s : string) : option stmt :=
  if String.eqb s "pass" then Some SPass
  else if String.eqb s "fig = plt.figure()" then Some SNewFigure
  else if String.eqb s "raise ValueError()" then Some (SRaise ValueError)
  else if String.eqb s "raise SystemExit" then Some (SRaise SystemExit)
  else if String.eqb s "df.drop(df.index, inplace=True)" then Some SDropRows
  else
    match between "plt.title('" "')" s with
    | Some t => Some (STitle t)
    | None =>
        match between "plt.savefig('" "')" s with
        | Some p => Some (SSavefig p)
        | None =>
            match between "open('" "', 'w').close()" s with
            | Some p => Some (SOpen p)
            | None => None
            end
        end
    end.

(** The statements of one line: no indentation, no empty statement but
    after a last semicolon. *)
Fixpoint parse_segments (l : list string) : option (list stmt) :=
  match l with
  | [] => Some []
  | [x] => if String.eqb (strip x) "" then Some []
           else match parse_stmt (strip x) with
                | Some st => Some [st]
                | None => None
                end
  | x :: l' =>
      match parse_stmt (strip x), parse_segments l' with
      | Some st, Some sts => Some (st :: sts)
      | _, _ => None
      end
  end.

Definition parse_line (line : string) : option (list stmt) :=
  if String.eqb (strip line) "" then Some []
  else if String.eqb (lstrip line) line
       then match split_on ";" line with
            | [x] => match parse_stmt (strip x) with
                     | Some st => Some [st]
                     | None => None
                     end
            | x :: l' =>
                match parse_stmt (strip x), parse_segments l' with
                | Some st, Some sts => Some (st :: sts)
                | _, _ => None
                end
            | [] => None
            end
       else None.

Fixpoint parse_lines (l : list string) : option (list stmt) :=
  match l with
  | [] => Some []
  | x :: l' =>
      match parse_line x, parse_lines l' with
      | Some a, Some b => Some (a ++ b)%list
      | _, _ => None
      end
  end.

Definition compile (code : string) : option (list stmt) :=
  parse_lines (split_on newline code).

Fixpoint lookup (name : string) (sc : scope) : option binding :=
  match sc with
  | [] => None
  | (n, b) :: sc' => if String.eqb n name then Some b else lookup name sc'
  end.

(** A name is looked up in the local name space, then in the global one. *)
Definition resolve (name : string) (globals locals : scope) : option binding :=
  match lookup name locals with
  | Some b => Some b
  | None => lookup name globals
  end.

(** The number pyplot gives to a new figure. *)
Definition next_num (r : list (Z * figure)) : Z :=
  match r with
  | [] => 1%Z
  | _ => (fold_right Z.max 0%Z (map fst r) + 1)%Z
  end.

(** The current figure, made when there is none. *)
Definition gcf (e : Env) : (Z * figure) * Env :=
  match py_last (figs e) with
  | Some f => (f, e)
  | None => ((1%Z, []), set_figs [(1%Z, [])] e)
  end.

Fixpoint set_nth {A} (n : nat) (x : A) (l : list A) : list A :=
  match l, n with
  | [], _ => []
  | _ :: l', O => x :: l'
  | y :: l', S n' => y :: set_nth n' x l'
  end.

Definition write_env (path : string) (b : blob) (e : Env) : outcome unit * Env :=
  if existsb (String.eqb path) (unwritable e) then (Raise OSError, e)
  else (Ok tt, set_files (set_file path b (files e)) e).

Definition run_stmt (globals locals : scope) (st : stmt) (e : Env)
  : outcome unit * Env :=
  match st with
  | SPass => (Ok tt, e)
  | SRaise x => (Raise x, e)
  | SOpen path => write_env path (RawFile "") e
  | SDropRows =>
      match resolve "df" globals locals with
      | Some (BDataFrame r) =>
          let d := deref r e in
          (Ok tt,
           set_frames (set_nth r {| df_columns := df_columns d; df_rows := [] |}
                               (frames e)) e)
      | Some _ => (Raise AttributeError, e)
      | None => (Raise NameError, e)
      end
  | SNewFigure =>
      match resolve "plt" globals locals with
      | Some BPyplot =>
          (Ok tt, set_figs (figs e ++ [(next_num (figs e), [])]) e)
      | Some _ => (Raise AttributeError, e)
      | None => (Raise NameError, e)
      end
  | STitle t =>
      match resolve "plt" globals locals with
      | Some BPyplot =>
          let (f, e1) := gcf e in
          (Ok tt,
           set_figs (remove_fig (fst f) (figs e1)
                       ++ [(fst f, (snd f ++ [("title " ++ t)%string])%list)]) e1)
      | Some _ => (Raise AttributeError, e)
      | None => (Raise NameError, e)
      end
  | SSavefig path =>
      match resolve "plt" globals locals with
      | Some BPyplot =>
          let (f, e1) := gcf e in write_env path (PngFile (savefig f)) e1
      | Some _ => (Raise AttributeError, e)
      | None => (Raise NameError, e)
      end
  end.

Fixpoint run_stmts (globals locals : scope) (l : list stmt) (e : Env)
  : outcome unit * Env :=
  match l with
  | [] => (Ok tt, e)
  | st :: l' =>
      match run_stmt globals locals st e with
      | (Ok _, e') => run_stmts globals locals l' e'
      | (Raise x, e') => (Raise x, e')
      end
  end.

Definition snippet_exec (code : string) (globals locals : scope) (e : Env)
  : outcome unit * Env :=
  match compile code with
  | Some l => run_stmts globals locals l e
  | None => (Raise SyntaxError, e)
  end.

(** The service answers the n-th request with the n-th entry of a script. *)
Definition scripted (script : list (outcome response)) (n : nat) (_ : request)
  : outcome response :=
  nth n script (Raise (ServiceError "no answer")).

(** A workbook reader that finds the given sheets. *)
Definition workbook (l : list (string * DataFrame)) (_ : string) (_ : Env)
  : outcome (list (string * DataFrame)) := Ok l.

Definition no_csv (_ : string) (_ : Env) : outcome DataFrame := Raise OSError.

Definition table : DataFrame :=
  {| df_columns := ["a"; "b"];
     df_rows := [[VInt 1; VInt 2]; [VInt 3; VInt 4]] |}.

Definition env0 : Env :=
  {| frames := [table]; figs := []; files := []; unwritable := [] |}.

Definition w0 : World := {| env := env0; trace := [] |}.

Definition sheet0 (v : pyval) : SheetState :=
  {| sheet_name := "Sheet1"; summary := VDict []; profile := VDict [];
     df := 0; insights := Some (VStr "sales grow"); visuals := Some v;
     pdf_path := None |}.

End Concrete.

(** ** The four stages and the endpoint *)

Section Pipeline.

(** The directory of the application's modules. *)
Variable BASE_DIR : string.

(** [pd.read_csv(filepath, encoding="utf-8")] *)
Variable read_csv : string -> Env -> outcome DataFrame.

(** [app.profiler], which is not part of the sources at hand: the
    workbook reader and the two summaries, taken as they come. *)
Variable parse_excel : string -> Env -> outcome (list (string * DataFrame)).
Variable basic_summary : DataFrame -> pyval.
Variable profile_to_json : DataFrame -> pyval.

(** [str()] of a value, of a table and of a list of column names, as the
    f-strings of the prompts format them. *)
Variable py_str : pyval -> string.
Variable df_str : DataFrame -> string.
Variable columns_str : list string -> string.

(** The fixed instruction of the insight stage (lines 73-92) and the
    instruction of the planning stage (lines 131-158), which embeds the
    table and its column names. *)
Variable insights_system_content : string.
Variable visuals_system_content : string -> string -> string.

(** [app.llm_client]: the completion for a request; the number of earlier
    requests lets the service answer differently each time. *)
Variable chat_create : nat -> request -> outcome response.

(** [exec(code, globals, locals)]: what running a piece of code does to
    the process. *)
Variable py_exec : string -> scope -> scope -> Env -> outcome unit * Env.

Definition REPORT_DIR : string := os_path_join BASE_DIR "generated_reports".
Definition UPLOAD_DIR : string := os_path_join BASE_DIR "uploads".

(** [client.chat.completions.create(...)] *)
Definition create (r : request) : M response :=
  fun w =>
    (chat_create (count_create (trace w)) r,
     {| env := env w; trace := trace w ++ [EvCreate r] |}).

(** [exec(plot_code, {}, local_scope)] *)
Definition exec (chart_name : pyval) (plot_code : string) (globals locals : scope)
  : M unit :=
  emit (EvExec chart_name plot_code globals locals) ;;;
  fun w =>
    let (r, e') := py_exec plot_code globals locals (env w) in
    (r, {| env := e'; trace := trace w |}).

(** *** Stage 1 *)

Definition add_sheet (acc : list SheetState) (x : string * DataFrame)
  : M (list SheetState) :=
  e <- get_env ;;
  put_env (set_frames (frames e ++ [snd x]) e) ;;;
  ret (acc ++ [{| sheet_name := fst x;
                  summary := basic_summary (snd x);
                  profile := profile_to_json (snd x);
                  df := List.length (frames e);
                  insights := None; visuals := None; pdf_path := None |}])%list.

Definition get_data_profile (state : DataProfileState) : M DataProfileState :=
  e <- get_env ;;
  named <- (if endswith (filepath state) ".csv"
            then match read_csv (filepath state) e with
                 | Ok d => ret [("Sheet1", d)]
                 | Raise x => raise x
                 end
            else lift (parse_excel (filepath state) e)) ;;
  sheet_states <- foldM add_sheet [] named ;;
  ret (set_sheets sheet_states state).

(** *** Stage 2 *)

(** Lines 71-106: the request for the insights of a sheet. *)
Definition insights_request (sheet : SheetState) : request :=
  let system_prompt := ("system", insights_system_content) in
  let user_prompt :=
    ("user",
     "Sheet:" ++ sheet_name sheet ++ String newline
       (" Summary:" ++ py_str (summary sheet) ++ String newline
          (" Profile:" ++ py_str (profile sheet)))) in
  {| messages := [system_prompt; user_prompt];
     max_tokens := 4096; temperature := 1; top_p := 1; model := "gpt-4o" |}.

Definition generate_insights_sheet (updated_sheets : list SheetState)
  (sheet : SheetState) : M (list SheetState) :=
  response <- create (insights_request sheet) ;;
  content <- lift (first_content response) ;;
  ret (updated_sheets ++ [set_insights content sheet])%list.

Definition generate_insights (state : DataProfileState) : M DataProfileState :=
  l <- item (sheets state) ;;
  updated_sheets <- foldM generate_insights_sheet [] l ;;
  ret (set_sheets updated_sheets state).

(** *** Stage 3 *)

(** Lines 121-166: the request for the chart specifications of a sheet,
    from its insights and its table. *)
Definition visuals_request (i : pyval) (d : DataFrame) : request :=
  let user_prompt := ("user", "Business Insights: " ++ py_str i) in
  let df_columns := df_columns d in
  let system_prompt :=
    ("system", visuals_system_content (df_str d) (columns_str df_columns)) in
  {| messages := [system_prompt; user_prompt];
     max_tokens := 4096; temperature := 0; top_p := 1; model := "gpt-4o" |}.

Definition suggest_plots_sheet (updated_sheets : list SheetState)
  (sheet : SheetState) : M (list SheetState) :=
  i <- item (insights sheet) ;;
  e <- get_env ;;
  response <- create (visuals_request i (deref (df sheet) e)) ;;
  content <- lift (first_content response) ;;
  raw <- lift (as_str content) ;;
  v <- lift (literal_eval (remove_code_block_markers raw)) ;;
  ret (updated_sheets ++ [set_visuals v sheet])%list.

Definition suggest_plots (state : DataProfileState) : M DataProfileState :=
  l <- item (sheets state) ;;
  updated_sheets <- foldM suggest_plots_sheet [] l ;;
  ret (set_sheets updated_sheets state).

(** *** Stage 4 *)

(** One turn of the comprehension [plt.figure(n) for n in ...]. *)
Definition figure_step (acc : list (Z * figure)) (n : Z) : M (list (Z * figure)) :=
  f <- plt_figure n ;; ret (acc ++ [f])%list.

(** Lines 201-211: the figure with the greatest number is saved and
    closed; with no figure there is a message only. *)
Definition capture (sheet : SheetState) (chart_name description : pyval)
  (images_with_descriptions : list (image * pyval))
  : M (list (image * pyval)) :=
  e <- get_env ;;
  figs <- foldM figure_step [] (plt_get_fignums e) ;;
  match py_last figs with
  | Some fig =>
      let buf := savefig fig in
      plt_close fig ;;;
      ret (images_with_descriptions ++ [(buf, description)])%list
  | None =>
      emit (EvPrintNoFigure chart_name (sheet_name sheet)) ;;;
      ret images_with_descriptions
  end.

(** Lines 188-211: one turn of the loop over the chart specifications. *)
Definition render_chart (sheet : SheetState)
  (images_with_descriptions : list (image * pyval)) (x : pyval * pyval)
  : M (list (image * pyval)) :=
  let (chart_name, chart) := x in
  plot_code <- lift (plot_code_of chart) ;;
  description <- lift (description_of chart) ;;
  caught <- attempt (exec chart_name plot_code [] (local_scope (df sheet))) ;;
  match caught with
  | Some e =>
      emit (EvPrintExecError chart_name e) ;;;
      ret images_with_descriptions
  | None => capture sheet chart_name description images_with_descriptions
  end.

Definition pdf_filename_of (sheet : SheetState) : string :=
  os_path_join REPORT_DIR (sheet_name sheet ++ ".pdf").

(** Lines 213-237: the document of one sheet. *)
Definition write_report (sheet : SheetState)
  (images_with_descriptions : list (image * pyval)) : M SheetState :=
  let pdf_filename := pdf_filename_of sheet in
  pages <- lift (draw_pages images_with_descriptions) ;;
  emit (EvSave pdf_filename) ;;;
  write_file pdf_filename (PdfFile pages) ;;;
  ret (set_pdf_path (os_path_basename pdf_filename) sheet).

Definition make_plots_sheet (updated_sheets : list SheetState)
  (sheet : SheetState) : M (list SheetState) :=
  v <- item (visuals sheet) ;;
  items <- lift (py_items v) ;;
  images_with_descriptions <- foldM (render_chart sheet) [] items ;;
  sheet' <- write_report sheet images_with_descriptions ;;
  ret (updated_sheets ++ [sheet'])%list.

Definition make_plots (state : DataProfileState) : M DataProfileState :=
  l <- item (sheets state) ;;
  updated_sheets <- foldM make_plots_sheet [] l ;;
  ret (set_sheets updated_sheets state).

(** *** The graph and the upload endpoint *)

(** [workflow.invoke]: the four nodes in a line. *)
Definition workflow_invoke (initial_state : DataProfileState)
  : M DataProfileState :=
  s1 <- get_data_profile initial_state ;;
  s2 <- generate_insights s1 ;;
  s3 <- suggest_plots s2 ;;
  make_plots s3.

Inductive JSONResponse : Type :=
| InvalidFileType                 (* status 400 *)
| UploadFailed (e : exn)          (* status 500 *)
| WorkflowFailed (e : exn)        (* status 500, success false *)
| Success (pdfs : list string).   (* status 200, success true *)

(** Lines 87-93 *)
Definition collect_pdfs (final_state : DataProfileState) (e : Env) : list string :=
  let l := match sheets final_state with Some l => l | None => [] end in
  flat_map
    (fun sheet =>
       match pdf_path sheet with
       | Some pdf_name =>
           if negb (String.eqb pdf_name "")
              && os_path_exists (os_path_join REPORT_DIR pdf_name) e
           then [pdf_name] else []
       | None => []
       end) l.

Definition upload_file (filename : string) (content : string) : M JSONResponse :=
  if negb (endswith filename ".csv" || endswith filename ".xlsx"
           || endswith filename ".xls")
  then ret InvalidFileType
  else
    let file_path := os_path_join UPLOAD_DIR filename in
    saved <- attempt (write_file file_path (RawFile content)) ;;
    match saved with
    | Some e => ret (UploadFailed e)
    | None =>
        fun w =>
          match workflow_invoke {| filepath := file_path; sheets := None |} w with
          | (Ok final_state, w') =>
              (Ok (Success (collect_pdfs final_state (env w'))), w')
          | (Raise e, w') =>
              if is_Exception e then (Ok (WorkflowFailed e), w')
              else (Raise e, w')
          end
    end.

End Pipeline.

(** ** The pipeline in the concrete setting *)

Module Demo.

Import Concrete.

Definition base : string := "/srv/app".

Definition blank (_ : DataFrame) : pyval := VDict [].
Definition no_text {A} (_ : A) : string := "".
Definition no_instruction (_ _ : string) : string := "".

Definition render := render_chart snippet_exec.
Definition plots_sheet := make_plots_sheet base snippet_exec.


Definition plan_sheet (script : list (outcome response)) :=
  suggest_plots_sheet no_text no_text no_text no_instruction (scripted script).


Definition upload (book : list (string * DataFrame))
  (script : list (outcome response)) :=
  upload_file base no_csv (workbook book) blank blank no_text no_text no_text
    "" no_instruction (scripted script) snippet_exec.

(** A chart specification with both fields. *)
Definition spec (plot description : string) : pyval :=
  VDict [(VStr "plot", VStr plot); (VStr "description", VStr description)].


(** The first chart draws and then raises, the second one draws nothing. *)
Definition leaking : pydict :=
  [(VStr "chart1", spec "fig = plt.figure(); plt.title('one'); raise ValueError()" "one");
   (VStr "chart2", spec "pass" "two")].

(** One chart that makes two figures. *)
Definition two_figures : pydict :=
  [(VStr "chart1", spec ("fig = plt.figure(); plt.title('a')" ++ String newline
                         "fig = plt.figure(); plt.title('b')") "one")].

(** A workbook of two sheets and the answers of the service for it: the
    insights of each sheet, then the chart specifications of each. *)
Definition two_sheets : list (string * DataFrame) :=
  [("North", table); ("South", table)].

Definition answers : list (outcome response) :=
  [Ok [VStr "sales grow"]; Ok [VStr "sales fall"];
   Ok [VStr "{'chart1': {'plot': 'fig = plt.figure()', 'description': 'trend'}}"];
   Ok [VStr "{}"]].

(** A process in which the report of the first sheet cannot be written. *)
Definition w_locked : World :=
  {| env := {| frames := []; figs := []; files := [];
               unwritable := ["/srv/app/generated_reports/North.pdf"] |};
     trace := [] |}.

End Demo.

(** ** The download endpoint and what the extra properties speak of *)

(** What [download_pdf] answers: the file at a path, sent under a name, or
    the 404 answer. *)
Inductive DownloadResponse : Type :=
| FileResponse (path media_type filename : string)
| FileNotFound.

(** [main.py], lines 98-103. *)
Definition download_pdf (BASE_DIR pdf_name : string) (e : Env) : DownloadResponse :=
  let pdf_path := os_path_join (REPORT_DIR BASE_DIR) pdf_name in
  if os_path_exists pdf_path e
  then FileResponse pdf_path "application/pdf" pdf_name
  else FileNotFound.

(** The content of the file at a path. *)
Fixpoint read_file (path : string) (fs : list (string * blob)) : option blob :=
  match fs with
  | [] => None
  | (p, b) :: fs' => if String.eqb p path then Some b else read_file path fs'
  end.

(** [old in s] *)
Fixpoint occurs (old s : string) : bool :=
  String.prefix old s
  || match s with
     | String _ s' => occurs old s'
     | EmptyString => false
     end.

Definition is_save (ev : event) : bool :=
  match ev with
  | EvSave _ => true
  | _ => false
  end.

(** The sheet with its insights, with its chart specifications, with its
    report path set, as the three later stages leave it. *)
Definition gains_insights (s s' : SheetState) : Prop :=
  exists content, s' = set_insights content s.

Definition gains_visuals (s s' : SheetState) : Prop :=
  exists v, s' = set_visuals v s.

Definition gains_report (BASE_DIR : string) (s s' : SheetState) : Prop :=
  s' = set_pdf_path (os_path_basename (pdf_filename_of BASE_DIR s)) s.

(** A value that is not a mapping, and a chart specification that is not
    a mapping or whose [plot] field is not a string. *)
Definition is_mapping (v : pyval) : bool :=
  match v with
  | VDict _ => true
  | _ => false
  end.

Definition malformed_spec (chart : pyval) : bool :=
  match chart with
  | VDict d =>
      match dict_get d (VStr "plot") with
      | Some (VStr _) | None => false
      | Some _ => true
      end
  | _ => true
  end.

(** The items of a list picked out by a list of flags. *)
Fixpoint select {A} (flags : list bool) (l : list A) : list A :=
  match flags, l with
  | b :: flags', x :: l' =>
      if b then x :: select flags' l' else select flags' l'
  | _, _ => []
  end.

(** Chart code that removes no file. *)
Definition keeps_files
  (py_exec : string -> scope -> scope -> Env -> outcome unit * Env) : Prop :=
  forall code globals locals e path,
    os_path_exists path e = true ->
    os_path_exists path (snd (py_exec code globals locals e)) = true.

(** Worlds between which the pipeline has neither called the service nor
    saved a document, and has removed no file unless chart code did. *)
Definition quiet_step
  (py_exec : string -> scope -> scope -> Env -> outcome unit * Env)
  (w w' : World) : Prop :=
  (exists delta, trace w' = (trace w ++ delta)%list
                 /\ existsb is_create delta = false
                 /\ existsb is_save delta = false)
  /\ (keeps_files py_exec ->
      forall path, os_path_exists path (env w) = true ->
                   os_path_exists path (env w') = true).

(** The sheet records that ingestion makes of the named tables of a
    source, the first of which gets the reference [n]. *)
Fixpoint ingested (basic_summary profile_to_json : DataFrame -> pyval)
  (n : ref) (named : list (string * DataFrame)) : list SheetState :=
  match named with
  | [] => []
  | x :: named' =>
      {| sheet_name := fst x;
         summary := basic_summary (snd x);
         profile := profile_to_json (snd x);
         df := n;
         insights := None; visuals := None; pdf_path := None |}
      :: ingested basic_summary profile_to_json (S n) named'
  end.

(** * Properties *)

(** ** Strings *)

Lemma str_app_assoc (a b c : string) : (a ++ b) ++ c = a ++ (b ++ c).
Proof.
  induction a as [|x a IH]; simpl; [reflexivity | now rewrite IH].
Qed.

Lemma str_length_app (a b : string) :
  String.length (a ++ b) = (String.length a + String.length b)%nat.
Proof.
  induction a as [|x a IH]; simpl; [reflexivity | now rewrite IH].
Qed.

Lemma drop_app_length (a b : string) : drop (String.length a) (a ++ b) = b.
Proof.
  induction a as [|x a IH]; simpl; [now destruct b | exact IH].
Qed.

Lemma take_app_length (a b : string) : take (String.length a) (a ++ b) = a.
Proof.
  induction a as [|x a IH]; simpl; [reflexivity | now rewrite IH].
Qed.

Lemma take_drop (n : nat) (s : string) : take n s ++ drop n s = s.
Proof.
  revert s; induction n as [|n IH]; intros [|c s]; simpl; try reflexivity.
  now rewrite IH.
Qed.

Lemma endswith_app (a p : string) : endswith (a ++ p) p = true.
Proof.
  unfold endswith. rewrite str_length_app.
  replace (String.length a + String.length p - String.length p)%nat
    with (String.length a) by lia.
  rewrite drop_app_length, String.eqb_refl, Bool.andb_true_r.
  apply Nat.leb_le; lia.
Qed.

Lemma endswith_inv (s p : string) :
  endswith s p = true -> exists a, s = a ++ p.
Proof.
  unfold endswith. intros H. apply Bool.andb_true_iff in H as [_ H].
  apply String.eqb_eq in H.
  exists (take (String.length s - String.length p) s).
  pose proof (take_drop (String.length s - String.length p) s) as T.
  rewrite H in T. now symmetry.
Qed.

Lemma slice_to_neg_app (a p : string) :
  slice_to_neg (String.length p) (a ++ p) = a.
Proof.
  unfold slice_to_neg. rewrite str_length_app.
  replace (String.length a + String.length p - String.length p)%nat
    with (String.length a) by lia.
  apply take_app_length.
Qed.

Lemma last_char_app (a : string) (c : ascii) :
  last_char (a ++ String c "") = Some c.
Proof.
  induction a as [|x a IH]; simpl; [reflexivity|].
  rewrite IH. destruct a; reflexivity.
Qed.

Lemma lstrip_app_space (ws s : string) :
  all_space ws = true -> lstrip (ws ++ s) = lstrip s.
Proof.
  induction ws as [|c ws IH]; simpl; intros H; [reflexivity|].
  apply Bool.andb_true_iff in H as [Hc Hws]. rewrite Hc. now apply IH.
Qed.

Lemma rstrip_all_space (ws : string) : all_space ws = true -> rstrip ws = "".
Proof.
  induction ws as [|c ws IH]; simpl; intros H; [reflexivity|].
  apply Bool.andb_true_iff in H as [Hc Hws]. now rewrite (IH Hws), Hc.
Qed.

Lemma rstrip_app_space (s ws : string) :
  all_space ws = true -> rstrip (s ++ ws) = rstrip s.
Proof.
  intros H. induction s as [|c s IH]; simpl.
  - now apply rstrip_all_space.
  - now rewrite IH.
Qed.

Lemma rstrip_app_nonempty (a b : string) :
  rstrip b <> "" -> rstrip (a ++ b) = a ++ rstrip b.
Proof.
  intros H. induction a as [|c a IH]; simpl; [reflexivity|].
  rewrite IH. destruct (a ++ rstrip b) eqn:E; [|reflexivity].
  destruct a; simpl in E; [contradiction | discriminate].
Qed.

Lemma rstrip_last_nonspace (s : string) (c : ascii) :
  is_space c = false -> rstrip (s ++ String c "") = s ++ String c "".
Proof.
  intros H.
  assert (R : rstrip (String c "") = String c "") by (simpl; now rewrite H).
  rewrite rstrip_app_nonempty; rewrite R; [reflexivity | discriminate].
Qed.

Lemma startswith_app (p x : string) : startswith (p ++ x) p = true.
Proof.
  unfold startswith. induction p as [|c p IH]; simpl.
  - now destruct x.
  - destruct (ascii_dec c c); [exact IH | contradiction].
Qed.

(** The markers of a [```json] block around a text written from brace to
    brace are removed, whatever white space surrounds the text and follows
    the block. *)
Lemma json_markers_removed (body ws1 ws2 ws3 : string) :
  all_space ws1 = true -> all_space ws2 = true -> all_space ws3 = true ->
  remove_code_block_markers
    ("```json" ++ ws1 ++ ("{" ++ body ++ "}") ++ ws2 ++ "```" ++ ws3)
  = "{" ++ body ++ "}".
Proof.
  intros H1 H2 H3. unfold remove_code_block_markers.
  set (t := "{" ++ body ++ "}").
  assert (Hl : forall x, lstrip (t ++ x) = t ++ x) by (intros x; reflexivity).
  assert (Hr : rstrip t = t).
  { unfold t. change ("{" ++ body ++ "}") with (String "{" body ++ "}").
    now apply rstrip_last_nonspace. }
  assert (S1 : strip (ws1 ++ t ++ ws2 ++ "```" ++ ws3) = t ++ ws2 ++ "```").
  { unfold strip. rewrite lstrip_app_space by assumption. rewrite Hl.
    replace (t ++ ws2 ++ "```" ++ ws3) with ((t ++ ws2 ++ "``") ++ "`" ++ ws3)
      by (now rewrite !str_app_assoc).
    replace ("`" ++ ws3) with (String "`" "" ++ ws3) by reflexivity.
    rewrite <- str_app_assoc, rstrip_app_space by assumption.
    rewrite rstrip_last_nonspace by reflexivity.
    now rewrite !str_app_assoc. }
  rewrite startswith_app.
  change (slice_from (String.length "```json")
            ("```json" ++ ws1 ++ t ++ ws2 ++ "```" ++ ws3))
    with (ws1 ++ t ++ ws2 ++ "```" ++ ws3).
  rewrite S1.
  replace (t ++ ws2 ++ "```") with ((t ++ ws2) ++ "```")
    by apply str_app_assoc.
  rewrite endswith_app, slice_to_neg_app.
  unfold strip. rewrite Hl, rstrip_app_space by assumption. exact Hr.
Qed.

(** A text written from brace to brace carries no marker. *)
Lemma bare_text_unchanged (body : string) :
  remove_code_block_markers ("{" ++ body ++ "}") = "{" ++ body ++ "}".
Proof.
  unfold remove_code_block_markers.
  change (startswith ("{" ++ body ++ "}") "```json") with false. cbv iota.
  destruct (endswith ("{" ++ body ++ "}") "```") eqn:E; [|reflexivity].
  apply endswith_inv in E as [a E].
  assert (L1 : last_char ("{" ++ body ++ "}") = Some "}"%char).
  { change ("{" ++ body ++ "}") with (String "{" body ++ "}").
    apply last_char_app. }
  rewrite E in L1.
  replace (a ++ "```") with ((a ++ "``") ++ "`") in L1
    by (now rewrite str_app_assoc).
  rewrite last_char_app in L1. discriminate.
Qed.

(** C2, as amended. The markers of a [```json] block are removed: for a
    text written from its opening to its closing brace, put in such a
    block with white space around it and after the block, what the
    planner evaluates is the text itself, so the result is that of
    evaluating the text directly. *)
Theorem json_block_parsed_as_bare (body ws1 ws2 ws3 : string) :
  all_space ws1 = true -> all_space ws2 = true -> all_space ws3 = true ->
  remove_code_block_markers
    ("```json" ++ ws1 ++ ("{" ++ body ++ "}") ++ ws2 ++ "```" ++ ws3)
  = "{" ++ body ++ "}"
  /\ literal_eval
       (remove_code_block_markers
          ("```json" ++ ws1 ++ ("{" ++ body ++ "}") ++ ws2 ++ "```" ++ ws3))
     = literal_eval ("{" ++ body ++ "}")
  /\ literal_eval
       (remove_code_block_markers
          ("```json" ++ ws1 ++ ("{" ++ body ++ "}") ++ ws2 ++ "```" ++ ws3))
     = literal_eval (remove_code_block_markers ("{" ++ body ++ "}")).
Proof.
  intros H1 H2 H3.
  rewrite (json_markers_removed body _ _ _ H1 H2 H3), bare_text_unchanged.
  now repeat split.
Qed.

(** ** The monad and the loops *)

Arguments render_chart : simpl never.
Arguments capture : simpl never.
Arguments write_report : simpl never.
Arguments make_plots_sheet : simpl never.
Arguments generate_insights_sheet : simpl never.
Arguments suggest_plots_sheet : simpl never.

Ltac run :=
  unfold bind, ret, lift, raise, emit, get_env, put_env, item; simpl.

Lemma foldM_app {A B} (f : A -> B -> M A) (l1 l2 : list B) (a : A) (w : World) :
  foldM f a (l1 ++ l2)%list w =
  match foldM f a l1 w with
  | (Ok a', w') => foldM f a' l2 w'
  | (Raise e, w') => (Raise e, w')
  end.
Proof.
  revert a w. induction l1 as [|x l1 IH]; intros a w; simpl; [reflexivity|].
  unfold bind. destruct (f a x w) as [[a'|e] w']; [apply IH | reflexivity].
Qed.

(** A relation between worlds that every turn of a loop respects is
    respected by the loop. *)
Lemma foldM_respects {A B} (R : World -> World -> Prop) (f : A -> B -> M A)
  (l : list B) :
  (forall w, R w w) ->
  (forall w1 w2 w3, R w1 w2 -> R w2 w3 -> R w1 w3) ->
  (forall a x w, In x l -> R w (snd (f a x w))) ->
  forall a w, R w (snd (foldM f a l w)).
Proof.
  intros Hrefl Htrans. induction l as [|x l IH]; intros Hstep a w; simpl.
  - apply Hrefl.
  - unfold bind. pose proof (Hstep a x w (or_introl eq_refl)) as H1.
    destruct (f a x w) as [[a'|e] w']; simpl in *.
    + eapply Htrans; [exact H1 | apply IH; intros; apply Hstep; now right].
    + exact H1.
Qed.

(** ** The figure registry *)

(** Worlds that differ in the figure registry at most. *)
Definition figs_only (w w' : World) : Prop :=
  frames (env w') = frames (env w) /\ files (env w') = files (env w)
  /\ unwritable (env w') = unwritable (env w) /\ trace w' = trace w.

Lemma figs_only_trans (w1 w2 w3 : World) :
  figs_only w1 w2 -> figs_only w2 w3 -> figs_only w1 w3.
Proof.
  intros (A1 & A2 & A3 & A4) (B1 & B2 & B3 & B4).
  repeat split; congruence.
Qed.

Lemma figure_step_spec (acc : list (Z * figure)) (n : Z) (w : World) :
  exists f w', figure_step acc n w = (Ok (acc ++ [f])%list, w') /\ figs_only w w'.
Proof.
  unfold figure_step, plt_figure. run.
  destruct (find_fig n (figs (env w))) as [f|].
  - exists (n, f). eexists. split; [reflexivity | now repeat split].
  - exists (n, []). eexists. split; [reflexivity | now repeat split].
Qed.

Lemma collect_figures_spec (nums : list Z) (acc : list (Z * figure)) (w : World) :
  exists l w',
    foldM figure_step acc nums w = (Ok (acc ++ l)%list, w')
    /\ List.length l = List.length nums /\ figs_only w w'.
Proof.
  revert acc w. induction nums as [|n nums IH]; intros acc w; simpl.
  - exists [], w. rewrite app_nil_r. repeat split.
  - unfold bind. destruct (figure_step_spec acc n w) as (f & w1 & E & F).
    rewrite E. destruct (IH (acc ++ [f])%list w1) as (l & w2 & E2 & L & F2).
    exists (f :: l), w2. rewrite E2, <- app_assoc. simpl.
    repeat split; try (now f_equal); try apply (figs_only_trans F F2).
Qed.

Lemma length_insert_num (n : Z) (l : list Z) :
  List.length (insert_num n l) = S (List.length l).
Proof.
  induction l as [|m l IH]; simpl; [reflexivity|].
  destruct (n <=? m)%Z; simpl; [reflexivity | now rewrite IH].
Qed.

Lemma length_sorted_nums (l : list Z) :
  List.length (sorted_nums l) = List.length l.
Proof.
  induction l as [|n l IH]; simpl; [reflexivity|].
  unfold sorted_nums in *. simpl. now rewrite length_insert_num, IH.
Qed.

Lemma py_last_app {A} (l : list A) (x : A) : py_last (l ++ [x]) = Some x.
Proof. unfold py_last. now rewrite rev_app_distr. Qed.

Lemma py_last_nonempty {A} (l : list A) :
  l <> [] -> exists x, py_last l = Some x.
Proof.
  destruct l as [|y l] using rev_ind; [contradiction|].
  intros _. exists y. apply py_last_app.
Qed.

(** What lines 201-211 do: nothing is raised; with an empty registry there
    is a message and no page, otherwise one page with the description. *)
Lemma capture_spec (sheet : SheetState) (k d : pyval)
  (acc : list (image * pyval)) (w : World) :
  exists acc' w',
    capture sheet k d acc w = (Ok acc', w')
    /\ frames (env w') = frames (env w) /\ files (env w') = files (env w)
    /\ unwritable (env w') = unwritable (env w)
    /\ ((figs (env w) = [] /\ acc' = acc
         /\ w' = {| env := env w;
                    trace := trace w ++ [EvPrintNoFigure k (sheet_name sheet)] |})
        \/ (figs (env w) <> [] /\ trace w' = trace w
            /\ exists img, acc' = (acc ++ [(img, d)])%list)).
Proof.
  unfold capture. run.
  destruct (figs (env w)) as [|p r] eqn:Ef.
  - unfold plt_get_fignums. rewrite Ef. simpl. run.
    eexists _, _. split; [reflexivity|]. simpl. repeat split.
    left. now repeat split.
  - destruct (collect_figures_spec (plt_get_fignums (env w)) [] w)
      as (l & w1 & E & L & (F1 & F2 & F3 & F4)).
    rewrite E. simpl.
    assert (Hl : l <> []).
    { intros ->. unfold plt_get_fignums in L.
      rewrite length_sorted_nums, length_map, Ef in L. discriminate. }
    destruct (py_last_nonempty Hl) as (fig & Hfig). rewrite Hfig.
    unfold plt_close. run.
    eexists _, _. split; [reflexivity|]. simpl. repeat split; try assumption.
    right. repeat split; [discriminate | assumption |].
    now exists (savefig fig).
Qed.

(** ** The renderer *)

Lemma plot_code_of_dict (chart : pyval) (code : string) :
  plot_code_of chart = Ok code ->
  exists d, chart = VDict d /\ exists v, description_of chart = Ok v.
Proof.
  destruct chart; simpl; try discriminate. intros _.
  exists d. split; [reflexivity|].
  destruct (dict_get d (VStr "description")); eauto.
Qed.

Section Properties.

Variable BASE_DIR : string.
Variable read_csv : string -> Env -> outcome DataFrame.
Variable parse_excel : string -> Env -> outcome (list (string * DataFrame)).
Variables basic_summary profile_to_json : DataFrame -> pyval.
Variable py_str : pyval -> string.
Variable df_str : DataFrame -> string.
Variable columns_str : list string -> string.
Variable insights_system_content : string.
Variable visuals_system_content : string -> string -> string.
Variable chat_create : nat -> request -> outcome response.
Variable py_exec : string -> scope -> scope -> Env -> outcome unit * Env.

(** A chart whose code raises an [Exception]: two events, no page. *)
Lemma render_chart_caught (sheet : SheetState) (k chart : pyval) (code : string)
  (e : exn) (env' : Env) (acc : list (image * pyval)) (w : World) :
  plot_code_of chart = Ok code ->
  py_exec code [] (local_scope (df sheet)) (env w) = (Raise e, env') ->
  is_Exception e = true ->
  render_chart py_exec sheet acc (k, chart) w
  = (Ok acc,
     {| env := env';
        trace := trace w ++ [EvExec k code [] (local_scope (df sheet));
                             EvPrintExecError k e] |}).
Proof.
  intros Hc He Hx. destruct (plot_code_of_dict _ Hc) as (d & -> & v & Hd).
  unfold render_chart. rewrite Hc, Hd. unfold attempt, exec. run.
  rewrite He, Hx. simpl. now rewrite <- app_assoc.
Qed.

(** A chart whose code returns: lines 201-211 follow. *)
Lemma render_chart_returned (sheet : SheetState) (k chart d : pyval)
  (code : string) (env' : Env) (acc : list (image * pyval)) (w : World) :
  plot_code_of chart = Ok code ->
  description_of chart = Ok d ->
  py_exec code [] (local_scope (df sheet)) (env w) = (Ok tt, env') ->
  render_chart py_exec sheet acc (k, chart) w
  = capture sheet k d acc
      {| env := env';
         trace := trace w ++ [EvExec k code [] (local_scope (df sheet))] |}.
Proof.
  intros Hc Hd He. unfold render_chart. rewrite Hc, Hd.
  unfold attempt, exec. run. now rewrite He.
Qed.

(** What one turn of the loop does to the world: nothing when the
    specification is malformed; otherwise the code is executed once, in
    the three-binding scope, and what follows touches the registry and
    prints at most. *)
Lemma render_chart_world (sheet : SheetState) (acc : list (image * pyval))
  (k chart : pyval) (w : World) :
  let w' := snd (render_chart py_exec sheet acc (k, chart) w) in
  (exists e, plot_code_of chart = Raise e
             /\ render_chart py_exec sheet acc (k, chart) w = (Raise e, w))
  \/ exists code tl,
       plot_code_of chart = Ok code
       /\ let r := py_exec code [] (local_scope (df sheet)) (env w) in
          frames (env w') = frames (snd r) /\ files (env w') = files (snd r)
          /\ unwritable (env w') = unwritable (snd r)
          /\ trace w' = (trace w ++ EvExec k code [] (local_scope (df sheet)) :: tl)%list
          /\ existsb is_exec tl = false.
Proof.
  cbv zeta. destruct (plot_code_of chart) as [code|e] eqn:Hc.
  - right. exists code.
    destruct (plot_code_of_dict _ Hc) as (d & -> & v & Hd).
    destruct (py_exec code [] (local_scope (df sheet)) (env w)) as [[[]|e] env']
      eqn:He.
    + rewrite (render_chart_returned sheet k (VDict d) acc w Hc Hd He).
      destruct (capture_spec sheet k v acc
                  {| env := env';
                     trace := trace w ++ [EvExec k code [] (local_scope (df sheet))] |})
        as (acc' & w3 & E & F1 & F2 & F3 & [(_ & _ & ->)|(_ & T & _)]);
        rewrite E; simpl in *.
      * exists [EvPrintNoFigure k (sheet_name sheet)].
        rewrite <- app_assoc. now repeat split.
      * exists []. rewrite T. now repeat split.
    + destruct (is_Exception e) eqn:Hx.
      * rewrite (render_chart_caught sheet k (VDict d) acc w Hc He Hx). simpl.
        exists [EvPrintExecError k e]. now repeat split.
      * unfold render_chart. rewrite Hc, Hd. unfold attempt, exec. run.
        rewrite He, Hx. simpl. exists []. now repeat split.
  - left. exists e. split; [reflexivity|].
    unfold render_chart. rewrite Hc. now run.
Qed.

Lemma exec_codes_app (a b : list event) :
  exec_codes (a ++ b) = (exec_codes a ++ exec_codes b)%list.
Proof. unfold exec_codes. apply flat_map_app. Qed.

Lemma exec_codes_no_exec (l : list event) :
  existsb is_exec l = false -> exec_codes l = [] /\ forall r, Forall (three_bindings r) l.
Proof.
  induction l as [|ev l IH]; simpl; intros H; [now split|].
  apply Bool.orb_false_iff in H as [H1 H2]. destruct (IH H2) as [I1 I2].
  destruct ev; try discriminate; simpl; (split; [exact I1|]);
    intros df0; constructor; simpl; auto.
Qed.

(** The [exec] calls of the loop over the chart specifications. *)
Lemma render_loop_trace (sheet : SheetState) (items : pydict) :
  forall (acc : list (image * pyval)) (w : World),
  exists delta,
    trace (snd (foldM (render_chart py_exec sheet) acc items w))
    = (trace w ++ delta)%list
    /\ Forall (three_bindings (df sheet)) delta
    /\ forall acc',
         fst (foldM (render_chart py_exec sheet) acc items w) = Ok acc' ->
         exec_codes delta = chart_codes items.
Proof.
  induction items as [|[k chart] items IH]; intros acc w; simpl.
  - exists []. rewrite app_nil_r. now repeat split.
  - unfold bind.
    destruct (render_chart_world sheet acc k chart w)
      as [(e & Hc & E)|(code & tl & Hc & _ & _ & _ & T & N)].
    + rewrite E. simpl. exists []. rewrite app_nil_r.
      repeat split; [constructor | discriminate].
    + destruct (render_chart py_exec sheet acc (k, chart) w) as [[a|e] w1];
        simpl in T; destruct (exec_codes_no_exec _ N) as [N1 N2].
      * destruct (IH a w1) as (delta & D1 & D2 & D3).
        exists (EvExec k code [] (local_scope (df sheet)) :: tl ++ delta)%list.
        rewrite D1, T, <- app_assoc. simpl. repeat split.
        -- constructor; [now split|]. apply Forall_app. split; [apply N2 | exact D2].
        -- intros acc' Ha. rewrite Hc. simpl.
           change (exec_codes (tl ++ delta)) with (exec_codes (tl ++ delta)%list).
           rewrite exec_codes_app, N1. simpl. f_equal. now apply (D3 acc').
      * simpl. exists (EvExec k code [] (local_scope (df sheet)) :: tl).
        repeat split; [exact T | | discriminate].
        constructor; [now split | apply N2].
Qed.

(** What writing the report does to the world. *)
Lemma write_report_world (sheet : SheetState) (images : list (image * pyval))
  (w : World) :
  let w' := snd (write_report BASE_DIR sheet images w) in
  frames (env w') = frames (env w) /\ figs (env w') = figs (env w)
  /\ unwritable (env w') = unwritable (env w)
  /\ exists tl, trace w' = (trace w ++ tl)%list /\ existsb is_exec tl = false.
Proof.
  unfold write_report, write_file. run.
  destruct (draw_pages images) as [pages|e]; simpl.
  - destruct (existsb (String.eqb (pdf_filename_of BASE_DIR sheet))
                (unwritable (env w))); simpl;
      repeat split; now exists [EvSave (pdf_filename_of BASE_DIR sheet)].
  - repeat split. exists []. now rewrite app_nil_r.
Qed.


(** C6, as amended. Execution context. Every [exec] call of the renderer
    for a sheet has an empty global name space and a local one of exactly
    three bindings: [df], the dataset object of the sheet, [plt] and
    [pd]; when the sheet is rendered to the end, the code strings executed
    are those of its chart specifications, each once and in order. *)
Theorem exec_scope (sheet : SheetState) (updated_sheets : list SheetState)
  (w : World) :
  exists delta,
    trace (snd (make_plots_sheet BASE_DIR py_exec updated_sheets sheet w))
    = (trace w ++ delta)%list
    /\ Forall (three_bindings (df sheet)) delta
    /\ forall items r,
         visuals sheet = Some (VDict items) ->
         fst (make_plots_sheet BASE_DIR py_exec updated_sheets sheet w) = Ok r ->
         exec_codes delta = chart_codes items.
Proof.
  assert (Nil : forall w0 : World, trace w0 = (trace w0 ++ [])%list)
    by (intros; now rewrite app_nil_r).
  unfold make_plots_sheet. run.
  destruct (visuals sheet) as [v|]; simpl;
    [| exists []; repeat split; [apply Nil | constructor | discriminate]].
  destruct v; simpl;
    try (exists []; repeat split; [apply Nil | constructor | discriminate]).
  destruct (render_loop_trace sheet d [] w) as (delta & D1 & D2 & D3).
  destruct (foldM (render_chart py_exec sheet) [] d w) as [[images|e] w1];
    simpl in *.
  - destruct (write_report_world sheet images w1) as (_ & _ & _ & tl & T & N).
    destruct (exec_codes_no_exec _ N) as [N1 N2].
    exists (delta ++ tl)%list.
    destruct (write_report BASE_DIR sheet images w1) as [[s'|e] w2]; simpl in *;
      rewrite T, D1, app_assoc; (repeat split;
        [apply Forall_app; split; [exact D2 | apply N2] |]).
    + intros items r [= <-] _. rewrite exec_codes_app, N1, app_nil_r.
      now apply (D3 images).
    + discriminate.
  - exists delta. repeat split; [exact D1 | exact D2 | discriminate].
Qed.

Lemma in_chart_codes (items : pydict) (k chart : pyval) (code : string) :
  In (k, chart) items -> plot_code_of chart = Ok code ->
  In code (chart_codes items).
Proof.
  intros Hin Hc. unfold chart_codes. apply in_flat_map.
  exists (k, chart). split; [exact Hin|]. simpl. rewrite Hc. now left.
Qed.

(** C8, as amended. The stages after ingestion do not write to a dataset
    themselves: the insight and the planning stage leave the whole
    process state as it is, and the renderer leaves every dataset as it
    is whenever the chart code it executes, which is handed the dataset
    object itself, does. *)
Theorem dataset_left_alone (sheet : SheetState) (items : pydict)
  (updated_sheets : list SheetState) (w : World) :
  visuals sheet = Some (VDict items) ->
  (forall code e, In code (chart_codes items) ->
     frames (snd (py_exec code [] (local_scope (df sheet)) e)) = frames e) ->
  frames (env (snd (make_plots_sheet BASE_DIR py_exec updated_sheets sheet w)))
  = frames (env w)
  /\ env (snd (generate_insights_sheet py_str insights_system_content
                 chat_create updated_sheets sheet w)) = env w
  /\ env (snd (suggest_plots_sheet py_str df_str columns_str
                 visuals_system_content chat_create updated_sheets sheet w))
     = env w.
Proof.
  intros Hv Hpure. split; [|split].
  - unfold make_plots_sheet. rewrite Hv. run.
    assert (L : frames (env (snd (foldM (render_chart py_exec sheet) [] items w)))
                = frames (env w)).
    { apply (foldM_respects
               (fun w1 w2 => frames (env w2) = frames (env w1))
               (render_chart py_exec sheet) items);
        [reflexivity | intros; congruence |].
      intros a [k chart] w1 Hin.
      destruct (render_chart_world sheet a k chart w1)
        as [(e & _ & E)|(code & tl & Hc & F & _)].
      - now rewrite E.
      - rewrite F. apply Hpure. eapply in_chart_codes; eassumption. }
    destruct (foldM (render_chart py_exec sheet) [] items w) as [[images|e] w1];
      simpl in *; [|exact L].
    destruct (write_report_world sheet images w1) as (F & _).
    destruct (write_report BASE_DIR sheet images w1) as [[s'|e] w2];
      simpl in *; congruence.
  - unfold generate_insights_sheet, create. run.
    destruct (chat_create _ _) as [[|c r]|e]; reflexivity.
  - unfold suggest_plots_sheet, create. run.
    destruct (insights sheet) as [i|]; simpl; [|reflexivity].
    destruct (chat_create _ _) as [[|c r]|e]; simpl; try reflexivity.
    destruct (as_str c) as [raw|e]; simpl; [|reflexivity].
    destruct (literal_eval _); reflexivity.
Qed.











(** C4, as amended. Planner output. After the markers are removed the
    planner evaluates the text as a Python literal and stores the value
    as the chart specifications of the sheet, whatever its shape; it
    fails when the text is not a well-formed literal, with the exception
    of the evaluator, and makes no check of the shape of the value. *)
Theorem planner_stores_literal (sheet : SheetState) (i : pyval)
  (updated_sheets : list SheetState) (w : World) :
  insights sheet = Some i ->
  suggest_plots_sheet py_str df_str columns_str visuals_system_content
    chat_create updated_sheets sheet w
  = (match chat_create (count_create (trace w))
             (visuals_request py_str df_str columns_str visuals_system_content
                i (deref (df sheet) (env w))) with
     | Ok (VStr raw :: _) =>
         match literal_eval (remove_code_block_markers raw) with
         | Ok v => Ok (updated_sheets ++ [set_visuals v sheet])%list
         | Raise e => Raise e
         end
     | Ok (_ :: _) => Raise AttributeError
     | Ok [] => Raise IndexError
     | Raise e => Raise e
     end,
     {| env := env w;
        trace := trace w
                 ++ [EvCreate (visuals_request py_str df_str columns_str
                                 visuals_system_content i
                                 (deref (df sheet) (env w)))] |}).
Proof.
  intros Hi. unfold suggest_plots_sheet, create. rewrite Hi. run.
  destruct (chat_create _ _) as [[|c r]|e]; simpl; try reflexivity.
  destruct c; simpl; try reflexivity.
  destruct (literal_eval _); reflexivity.
Qed.

(** A sheet whose document cannot be written ends the rendering stage. *)
Lemma make_plots_write_failure (state : DataProfileState)
  (pre post : list SheetState) (sheet : SheetState) (items : pydict)
  (images : list (image * pyval)) (pages : list (image * string))
  (updated_sheets : list SheetState) (w w1 w2 : World) :
  sheets state = Some (pre ++ sheet :: post)%list ->
  foldM (make_plots_sheet BASE_DIR py_exec) [] pre w = (Ok updated_sheets, w1) ->
  visuals sheet = Some (VDict items) ->
  foldM (render_chart py_exec sheet) [] items w1 = (Ok images, w2) ->
  draw_pages images = Ok pages ->
  existsb (String.eqb (pdf_filename_of BASE_DIR sheet)) (unwritable (env w2))
  = true ->
  make_plots BASE_DIR py_exec state w
  = (Raise OSError,
     {| env := env w2;
        trace := trace w2 ++ [EvSave (pdf_filename_of BASE_DIR sheet)] |}).
Proof.
  intros Hs Hpre Hv Hloop Hdraw Hw.
  unfold make_plots. rewrite Hs. run. rewrite foldM_app, Hpre. simpl.
  unfold bind at 1. unfold make_plots_sheet at 1. rewrite Hv. run.
  rewrite Hloop. unfold write_report, write_file. run.
  rewrite Hdraw. simpl. now rewrite Hw.
Qed.

(** C3, as amended. Report-write failure. When the document of one sheet
    cannot be persisted, the error is not caught at the sheet boundary:
    it ends the rendering stage and the run, the sheets after it are not
    processed, and the endpoint answers with the failure of the workflow
    instead of a list of reports. *)
Theorem write_failure_ends_run (filename content : string)
  (state : DataProfileState) (pre post : list SheetState) (sheet : SheetState)
  (items : pydict) (images : list (image * pyval))
  (pages : list (image * string)) (updated_sheets : list SheetState)
  (w wa wb w1 w2 : World) :
  endswith filename ".csv" || endswith filename ".xlsx"
  || endswith filename ".xls" = true ->
  write_file (os_path_join (UPLOAD_DIR BASE_DIR) filename) (RawFile content) w
  = (Ok tt, wa) ->
  (s1 <- get_data_profile read_csv parse_excel basic_summary profile_to_json
           {| filepath := os_path_join (UPLOAD_DIR BASE_DIR) filename;
              sheets := None |} ;;
   s2 <- generate_insights py_str insights_system_content chat_create s1 ;;
   suggest_plots py_str df_str columns_str visuals_system_content chat_create s2)
    wa = (Ok state, wb) ->
  sheets state = Some (pre ++ sheet :: post)%list ->
  foldM (make_plots_sheet BASE_DIR py_exec) [] pre wb = (Ok updated_sheets, w1) ->
  visuals sheet = Some (VDict items) ->
  foldM (render_chart py_exec sheet) [] items w1 = (Ok images, w2) ->
  draw_pages images = Ok pages ->
  existsb (String.eqb (pdf_filename_of BASE_DIR sheet)) (unwritable (env w2))
  = true ->
  upload_file BASE_DIR read_csv parse_excel basic_summary profile_to_json
    py_str df_str columns_str insights_system_content visuals_system_content
    chat_create py_exec filename content w
  = (Ok (WorkflowFailed OSError),
     {| env := env w2;
        trace := trace w2 ++ [EvSave (pdf_filename_of BASE_DIR sheet)] |}).
Proof.
  intros Hext Hup Hst Hs Hpre Hv Hloop Hdraw Hw.
  unfold upload_file. rewrite Hext. cbn [negb].
  unfold bind at 1, attempt. cbv beta iota. rewrite Hup.
  unfold workflow_invoke. revert Hst. unfold bind.
  destruct (get_data_profile _ _ _ _ _ wa) as [[s1|e1] w3]; [|discriminate].
  destruct (generate_insights _ _ _ s1 w3) as [[s2|e2] w4]; [|discriminate].
  intros Hst. rewrite Hst.
  now rewrite (make_plots_write_failure state pre post sheet wb Hs Hpre Hv
                 Hloop Hdraw Hw).
Qed.

End Properties.

(** * The properties at closed inputs *)

Import Concrete.


(** C2 fails for a block opened by a bare fence: the text that reaches
    the evaluator still begins with the fence. *)
Lemma bare_fence_not_removed :
  literal_eval "{'chart1': {'plot': 'pass', 'description': 'd'}}"
  = Ok (VDict [(VStr "chart1", Demo.spec "pass" "d")])
  /\ literal_eval
       (remove_code_block_markers
          ("```" ++ String newline
             ("{'chart1': {'plot': 'pass', 'description': 'd'}}"
                ++ String newline "```")))
     = Raise SyntaxError
  /\ literal_eval
       (remove_code_block_markers
          ("```" ++ String newline
             ("{'chart1': {'plot': 'pass', 'description': 'd'}}"
                ++ String newline "```")))
     <> literal_eval "{'chart1': {'plot': 'pass', 'description': 'd'}}".
Proof. repeat split; try reflexivity. discriminate. Qed.

(** C2, as amended, on a block with a line end after the opening marker,
    before the closing one and after it. *)
Lemma json_block_parsed_as_bare_witness :
  literal_eval
    (remove_code_block_markers
       ("```json" ++ String newline ""
          ++ ("{" ++ "'chart1': {'plot': 'pass', 'description': 'd'}" ++ "}")
          ++ String newline "" ++ "```" ++ String newline ""))
  = literal_eval ("{" ++ "'chart1': {'plot': 'pass', 'description': 'd'}" ++ "}").
Proof.
  apply (json_block_parsed_as_bare
           "'chart1': {'plot': 'pass', 'description': 'd'}"
           (String newline "") (String newline "") (String newline ""));
    reflexivity.
Defined.

(** C3 fails on a workbook of two sheets when the report of the first
    cannot be written: the endpoint answers with the failure of the
    workflow, not with the list that leaves the first sheet out, and the
    report of the second sheet is not written. *)
Lemma write_failure_not_confined :
  fst (Demo.upload Demo.two_sheets Demo.answers "book.xlsx" "" Demo.w_locked)
  = Ok (WorkflowFailed OSError)
  /\ files (env (snd (Demo.upload Demo.two_sheets Demo.answers "book.xlsx" ""
                        Demo.w_locked)))
     = [("/srv/app/uploads/book.xlsx", RawFile "")]
  /\ fst (Demo.upload Demo.two_sheets Demo.answers "book.xlsx" "" w0)
     = Ok (Success ["North.pdf"; "South.pdf"]).
Proof. repeat split; reflexivity. Qed.

(** C3, as amended, on that workbook: the hypotheses hold with no sheet
    before the failing one. *)
Lemma write_failure_ends_run_witness :
  fst (Demo.upload Demo.two_sheets Demo.answers "book.xlsx" "" Demo.w_locked)
  = Ok (WorkflowFailed OSError).
Proof.
  unfold Demo.upload.
  erewrite (@write_failure_ends_run Demo.base no_csv
              (workbook Demo.two_sheets) Demo.blank Demo.blank
              (@Demo.no_text pyval) (@Demo.no_text DataFrame)
              (@Demo.no_text (list string)) "" Demo.no_instruction
              (scripted Demo.answers) snippet_exec "book.xlsx" ""
              _ [] _ _ _ _ _ _ Demo.w_locked);
    reflexivity.
Defined.

(** C4 fails on a mapping without descriptions and on a list: both are
    stored as the chart specifications of the sheet. *)
Lemma planner_accepts_other_shapes :
  fst (Demo.plan_sheet [Ok [VStr "{'chart1': {'plot': 'pass'}}"]] []
         (sheet0 VNone) w0)
  = Ok [set_visuals (VDict [(VStr "chart1", VDict [(VStr "plot", VStr "pass")])])
          (sheet0 VNone)]
  /\ well_shaped (VDict [(VStr "chart1", VDict [(VStr "plot", VStr "pass")])])
     = false
  /\ fst (Demo.plan_sheet [Ok [VStr "['bar', 'line']"]] [] (sheet0 VNone) w0)
     = Ok [set_visuals (VList [VStr "bar"; VStr "line"]) (sheet0 VNone)]
  /\ well_shaped (VList [VStr "bar"; VStr "line"]) = false.
Proof. repeat split; reflexivity. Qed.

(** C4, as amended, on an answer in a [```json] block holding the empty
    mapping. *)
Lemma planner_stores_literal_witness :
  fst (Demo.plan_sheet [Ok [VStr "```json {} ```"]] [] (sheet0 VNone) w0)
  = Ok [set_visuals (VDict []) (sheet0 VNone)].
Proof.
  unfold Demo.plan_sheet.
  rewrite (@planner_stores_literal (@Demo.no_text pyval)
             (@Demo.no_text DataFrame) (@Demo.no_text (list string))
             Demo.no_instruction (scripted [Ok [VStr "```json {} ```"]])
             (sheet0 VNone) (VStr "sales grow") [] w0 eq_refl).
  reflexivity.
Defined.

(** C5, on the code as it is. A chart that draws and then raises leaves
    its figure in the registry, where the next chart, which draws
    nothing, finds it and has it for its own page; a chart that makes two
    figures leaves the first of them registered. *)
Lemma figure_left_registered :
  figs (env (snd (Demo.render (sheet0 (VDict Demo.leaking)) []
                    (VStr "chart1",
                     Demo.spec "fig = plt.figure(); plt.title('one'); raise ValueError()"
                       "one") w0)))
  = [(1%Z, ["title one"])]
  /\ fst (foldM (Demo.render (sheet0 (VDict Demo.leaking))) [] Demo.leaking w0)
     = Ok [(Png ["title one"], VStr "two")]
  /\ figs (env (snd (foldM (Demo.render (sheet0 (VDict Demo.two_figures))) []
                       Demo.two_figures w0)))
     = [(1%Z, ["title a"])].
Proof. repeat split; reflexivity. Qed.

(** C6 fails. Chart code reaches the file system through the [plt]
    binding, and through the builtins with no binding at all. *)
Lemma exec_reaches_files :
  files (env (snd (Demo.render (sheet0 VNone) []
                     (VStr "chart1", Demo.spec "plt.savefig('/tmp/leak.png')" "one")
                     w0)))
  = [("/tmp/leak.png", PngFile (Png []))]
  /\ files (snd (snippet_exec "open('/tmp/leak.txt', 'w').close()" [] [] env0))
     = [("/tmp/leak.txt", RawFile "")]
  /\ files env0 = [].
Proof. repeat split; reflexivity. Qed.


(** C8 fails. Chart code that drops the rows of [df] in place empties the
    dataset of the sheet. *)
Lemma exec_mutates_dataset :
  deref 0 (env (snd (Demo.render (sheet0 VNone) []
                       (VStr "chart1",
                        Demo.spec "df.drop(df.index, inplace=True)" "one") w0)))
  = {| df_columns := ["a"; "b"]; df_rows := [] |}
  /\ deref 0 (env w0) = table.
Proof. split; reflexivity. Qed.

(** C8, as amended, on a sheet whose only chart makes a figure. *)
Lemma dataset_left_alone_witness :
  frames (env (snd (Demo.plots_sheet []
                      (sheet0 (VDict [(VStr "chart1",
                                       Demo.spec "fig = plt.figure()" "one")]))
                      w0)))
  = [table].
Proof.
  apply (@dataset_left_alone Demo.base (@Demo.no_text pyval)
           (@Demo.no_text DataFrame) (@Demo.no_text (list string)) ""
           Demo.no_instruction (scripted []) snippet_exec
           (sheet0 (VDict [(VStr "chart1", Demo.spec "fig = plt.figure()" "one")]))
           [(VStr "chart1", Demo.spec "fig = plt.figure()" "one")] [] w0 eq_refl).
  intros code e [<-|[]]. reflexivity.
Defined.




(** C6, as amended, on a sheet with one chart: its code is the only code
    executed. *)
Lemma exec_scope_witness :
  exists delta,
    trace (snd (Demo.plots_sheet []
                  (sheet0 (VDict [(VStr "chart1",
                                   Demo.spec "fig = plt.figure()" "one")]))
                  w0))
    = (trace w0 ++ delta)%list
    /\ Forall (three_bindings 0) delta
    /\ exec_codes delta = ["fig = plt.figure()"].
Proof.
  destruct (@exec_scope Demo.base snippet_exec
              (sheet0 (VDict [(VStr "chart1", Demo.spec "fig = plt.figure()" "one")]))
              [] w0) as (delta & T & F & C).
  exists delta. repeat split; [exact T | exact F |].
  exact (C _ _ eq_refl eq_refl).
Defined.
